(** * ChatBot-RAG: a shallow embedding of [app.py] and [data_ingestion.py]

    The repository is a retrieval-augmented FAQ chatbot.  [data_ingestion.py]
    embeds the rows of a CSV of question/answer pairs and writes them to a
    Pinecone index; [app.py] is a Streamlit script that, per user message,
    embeds the question, queries the index and asks Gemini for an answer.

    Both files are orchestration over three network services.  The services
    are not part of the repository, so the clients are records of operations
    over an abstract remote state [R]; everything the scripts do themselves
    (exception handling, guards, the conversation log, the prompt, the vector
    records) is translated from the source.  Every outbound call and every
    UI or console output is recorded in a trace, in program order. *)

From Stdlib Require Import ZArith String List Lia.
From Stdlib Require Import Floats.PrimFloat.
From stdpp Require Import base gmap strings list pretty.

Local Open Scope string_scope.
Local Open Scope Z_scope.
Local Open Scope list_scope.

(** ** Python values and exceptions *)

(** A Python [float]: an IEEE-754 binary64.  The scripts only carry
    embedding components around, they never compute with them. *)
Definition float := PrimFloat.float.

(** The classes of [Exception] the scripts can meet.  [except Exception]
    handles every one of them; the system-exiting exceptions
    ([KeyboardInterrupt], [SystemExit]) are outside the model. *)
Inductive exn_class :=
| Exception
| IndexError
| KeyError
| AttributeError.

(** An exception instance; [exn_str e] is what [str(e)] and the f-string
    [{e}] produce. *)
Record exn := mkExn { exn_cls : exn_class; exn_str : string }.

(** The outcome of running a piece of Python: a value or a raised
    exception. *)
Inductive outcome (A : Type) :=
| Returns (a : A)
| Raises (e : exn).
Arguments Returns {A} a.
Arguments Raises {A} e.

(** The values typed [Any] in the source: the entries of a query result.
    A list is a Python list; every other object is opaque and carries
    the two texts Python can ask of it, [str(o)] and [repr(o)]. *)
#[warnings="-register-all"]
Inductive Any :=
| PyObject (str_text repr_text : string)
| PyList (items : list Any).

(** [", ".join(parts)] *)
Fixpoint join_comma (parts : list string) : string :=
  match parts with
  | [] => ""
  | [p] => p
  | p :: rest => p +:+ ", " +:+ join_comma rest
  end.

(** [repr(v)]: a list prints the [repr] of its items between brackets. *)
Fixpoint py_repr (v : Any) : string :=
  match v with
  | PyObject _ r => r
  | PyList items => "[" +:+ join_comma (map py_repr items) +:+ "]"
  end.

(** [str(v)], which is what an f-string field [{v}] inserts. *)
Definition py_str (v : Any) : string :=
  match v with
  | PyObject s _ => s
  | PyList _ => py_repr v
  end.

(** [sub in s] on strings. *)
Fixpoint contains (s sub : string) : bool :=
  String.prefix sub s ||
  match s with
  | EmptyString => false
  | String _ s' => contains s' sub
  end.

(** [l[i]] on a list. *)
Definition list_getitem {A} (l : list A) (i : nat) : outcome A :=
  match nth_error l i with
  | Some x => Returns x
  | None => Raises (mkExn IndexError "list index out of range")
  end.

(** [d[key]] on a mapping with string keys; [str] of a [KeyError] is the
    [repr] of the key. *)
Definition dict_getitem (d : gmap string Any) (key : string) : outcome Any :=
  match d !! key with
  | Some v => Returns v
  | None => Raises (mkExn KeyError ("'" +:+ key +:+ "'"))
  end.

(** Python truthiness of a list, of a string and of [Optional[str]]. *)
Definition list_truthy {A} (l : list A) : bool :=
  match l with [] => false | _ :: _ => true end.

Definition str_truthy (s : string) : bool :=
  match s with EmptyString => false | String _ _ => true end.

Definition opt_truthy (o : option string) : bool :=
  match o with None => false | Some s => str_truthy s end.

(** ** Data model *)

(** One conversation turn, the dict [{"role": ..., "content": ...}] kept
    in [st.session_state.messages]. *)
Record Message := mkMessage { role : string; content : string }.

(** One CSV row of the FAQ frame, with its two columns. *)
Record Row := mkRow { Question : string; Answer : string }.

(** A [DataFrame]: its rows with their index labels, in order, which is
    what [df.iterrows()] yields. *)
Definition DataFrame := list (Z * Row).

Definition iterrows (df : DataFrame) : list (Z * Row) := df.

(** The frame of a CSV file with the given data rows: [pd.read_csv] with
    its default arguments labels the rows 0, 1, 2, ... *)
Definition frame_of_csv (rows : list Row) : DataFrame :=
  imap (fun i row => (Z.of_nat i, row)) rows.

(** The metadata dict and the vector dict built by [prepare_vectors]. *)
Record Metadata := mkMetadata { question : string; answer : string }.

Record Vector := mkVector {
  id : string;
  values : list float;
  metadata : Metadata
}.

(** [ServerlessSpec(cloud=..., region=...)] *)
Record ServerlessSpec := mkServerlessSpec { cloud : string; region : string }.

(** The parts of the providers' responses that the scripts read. *)
Record Embedding := mkEmbedding { embedding : list float }.
Record CreateEmbeddingResponse := mkCreateEmbeddingResponse {
  data : list Embedding
}.
Record GenerateContentResponse := mkGenerateContentResponse { text : string }.

(** ** Effects *)

(** What the scripts do to the outside, in program order: calls to the
    three services, Streamlit output and console output. *)
Inductive Event :=
| EmbeddingsCreate (input : list string) (model : string)
| IndexQuery (vector : list float) (top_k : Z) (include_metadata : bool)
| GenerateContent (model contents : string)
| ListIndexes
| CreateIndex (name : string) (dimension : Z) (metric : string)
    (spec : ServerlessSpec)
| StError (body : string)
| StChatMessage (name : string)
| StMarkdown (body : string) (unsafe_allow_html : bool)
| StEmpty
| PlaceholderMarkdown (body : string) (unsafe_allow_html : bool)
| Print (line : string).

Section Runtime.
Context {R : Type}.

(** The state a script runs in: the state of the remote services, the
    trace so far, and the [messages] entry of [st.session_state]
    ([None] while the key is absent). *)
Record World := mkWorld {
  remote : R;
  trace : list Event;
  messages : option (list Message)
}.

(** A computation: it may change the world and either returns or
    raises. *)
Definition M (A : Type) : Type := World -> outcome A * World.

Definition ret {A} (a : A) : M A := fun w => (Returns a, w).

Definition bind {A B} (m : M A) (k : A -> M B) : M B :=
  fun w =>
    match m w with
    | (Returns a, w') => k a w'
    | (Raises e, w') => (Raises e, w')
    end.

(** [try: body / except Exception as e: handler] *)
Definition try_except {A} (body : M A) (handler : exn -> M A) : M A :=
  fun w =>
    match body w with
    | (Returns a, w') => (Returns a, w')
    | (Raises e, w') => handler e w'
    end.

(** A pure operation that can raise. *)
Definition lift {A} (o : outcome A) : M A := fun w => (o, w).

(** An output: one more event on the trace. *)
Definition emit (ev : Event) : M unit :=
  fun w => (Returns tt,
            {| remote := remote w; trace := trace w ++ [ev];
               messages := messages w |}).

(** A call to a service: the call is recorded, then the service
    answers (or fails) and moves to its next state. *)
Definition call {A} (ev : Event) (op : R -> outcome A * R) : M A :=
  fun w =>
    let '(o, r') := op (remote w) in
    (o, {| remote := r'; trace := trace w ++ [ev];
           messages := messages w |}).

(** [for x in xs: body x] *)
Fixpoint for_each {A} (xs : list A) (body : A -> M unit) : M unit :=
  match xs with
  | [] => ret tt
  | x :: rest => bind (body x) (fun _ => for_each rest body)
  end.

(** ["messages" not in st.session_state] *)
Definition messages_absent : M bool :=
  fun w => (Returns (match messages w with None => true | Some _ => false end),
            w).

(** [st.session_state.messages = l] *)
Definition set_messages (l : list Message) : M unit :=
  fun w => (Returns tt,
            {| remote := remote w; trace := trace w; messages := Some l |}).

(** Reading [st.session_state.messages]; Streamlit raises an
    [AttributeError] when the key is absent. *)
Definition get_messages : M (list Message) :=
  fun w =>
    match messages w with
    | Some l => (Returns l, w)
    | None =>
        (Raises (mkExn AttributeError
                   "st.session_state has no attribute 'messages'"), w)
    end.

(** [st.session_state.messages.append(m)]: the list in the session
    state is extended in place. *)
Definition messages_append (m : Message) : M unit :=
  bind get_messages (fun l => set_messages (l ++ [m])).

(** The service clients, as the operations the scripts use. *)
Record OpenAI := mkOpenAI {
  embeddings_create : list string -> string ->
                      R -> outcome CreateEmbeddingResponse * R
}.

Record PineconeIndex := mkPineconeIndex {
  index_query : list float -> Z -> bool -> R -> outcome (gmap string Any) * R
}.

Record Pinecone := mkPinecone {
  Index : string -> PineconeIndex;
  list_indexes_names : R -> outcome (list string) * R;
  create_index : string -> Z -> string -> ServerlessSpec ->
                 R -> outcome unit * R
}.

Record GenaiClient := mkGenaiClient {
  models_generate_content : string -> string ->
                            R -> outcome GenerateContentResponse * R
}.
End Runtime.

Arguments World R : clear implicits.
Arguments M R A : clear implicits.
Arguments OpenAI R : clear implicits.
Arguments PineconeIndex R : clear implicits.
Arguments Pinecone R : clear implicits.
Arguments GenaiClient R : clear implicits.

Declare Scope py_scope.
Delimit Scope py_scope with py.
Notation "x <- m ;; k" := (bind m (fun x => k))
  (at level 100, m at next level, right associativity) : py_scope.
Notation "m ;;; k" := (bind m (fun _ => k))
  (at level 100, right associativity) : py_scope.

Local Open Scope py_scope.

(** ** app.py *)

Module App.
Section App.
Context {R : Type}.

Definition PINECONE_INDEX_NAME : string := "ukmegashop-faq".
Definition EMBEDDING_MODEL : string := "text-embedding-3-small".
Definition GEMINI_MODEL : string := "gemini-2.0-flash".

(** What the process is started in: its environment variables and the
    constructors of the three client libraries. *)
Record Host := mkHost {
  getenv : string -> option string;
  Pinecone_ : option string -> Pinecone R;
  genai_Client : option string -> GenaiClient R;
  OpenAI_ : option string -> OpenAI R
}.

(** The dict returned by [load_config], with its three keys. *)
Record Config := mkConfig {
  pinecone_api_key : option string;
  google_api_key : option string;
  openai_api_key : option string
}.

Definition config_values (config : Config) : list (option string) :=
  [pinecone_api_key config; google_api_key config; openai_api_key config].

Definition load_config (h : Host) : Config :=
  {| pinecone_api_key := getenv h "PINECONE_API_KEY";
     google_api_key := getenv h "GOOGLE_API_KEY";
     openai_api_key := getenv h "OPENAI_API_KEY" |}.

Definition initialize_clients (h : Host) (config : Config)
  : Pinecone R * GenaiClient R * OpenAI R :=
  let pinecone_client := Pinecone_ h (pinecone_api_key config) in
  let google_client := genai_Client h (google_api_key config) in
  let openai_client := OpenAI_ h (openai_api_key config) in
  (pinecone_client, google_client, openai_client).

Definition get_embeddings (text : string) (client : OpenAI R)
    (model : string) : M R (list float) :=
  try_except
    (response <- call (EmbeddingsCreate [text] model)
                      (embeddings_create client [text] model) ;;
     first <- lift (list_getitem (data response) 0) ;;
     ret (embedding first))
    (fun e =>
       emit (StError ("Error generating embeddings: " +:+ exn_str e)) ;;;
       ret []).

Definition query_pinecone (index : PineconeIndex R)
    (query_embedding : list float) (top_k : Z) : M R (gmap string Any) :=
  try_except
    (call (IndexQuery query_embedding top_k true)
          (index_query index query_embedding top_k true))
    (fun e =>
       emit (StError ("Error querying Pinecone: " +:+ exn_str e)) ;;;
       ret {[ "matches" := PyList [] ]}).

(** The f-string of [generate_response], given [context['matches']]. *)
Definition prompt_text (input_text : string) (matches : Any) : string :=
  "You are a customer support chatbot for UK Mega Shop. "
  +:+ "User query: " +:+ input_text
  +:+ ", Retrieved Context: " +:+ py_str matches +:+ ". "
  +:+ "Now answer the user query using the context.".

Definition APOLOGY : string :=
  "Sorry, I couldn't process your request at this time.".

Definition generate_response (google_client : GenaiClient R)
    (input_text : string) (context : gmap string Any) : M R string :=
  matches <- lift (dict_getitem context "matches") ;;
  let prompt := prompt_text input_text matches in
  try_except
    (response <- call (GenerateContent GEMINI_MODEL prompt)
                      (models_generate_content google_client
                         GEMINI_MODEL prompt) ;;
     ret (text response))
    (fun e =>
       emit (StError ("Error generating response: " +:+ exn_str e)) ;;;
       ret APOLOGY).

(** The two loading animations written into the placeholder. *)
Definition FETCHING_HTML : string :=
"
                <div style='text-align: left'>
                    Fetching Context<span>.</span><span>.</span><span>.</span>
                </div>
                <style>
                    @keyframes blink {
                        0% { opacity: 0; }
                        50% { opacity: 1; }
                        100% { opacity: 0; }
                    }
                    span {
                        animation: blink 1s infinite;
                    }
                    span:nth-child(2) { animation-delay: 0.2s; }
                    span:nth-child(3) { animation-delay: 0.4s; }
                </style>
            ".

Definition SYNTHESIZING_HTML : string :=
"
                    <div style='text-align: left'>
                        Synthesizing Context<span>.</span><span>.</span><span>.</span>
                    </div>
                    <style>
                        @keyframes blink {
                            0% { opacity: 0; }
                            50% { opacity: 1; }
                            100% { opacity: 0; }
                        }
                        span {
                            animation: blink 1s infinite;
                        }
                        span:nth-child(2) { animation-delay: 0.2s; }
                        span:nth-child(3) { animation-delay: 0.4s; }
                    </style>
                ".

(** The canned pair the chat history starts with. *)
Definition SEED_QUESTION : Message :=
  {| role := "human";
     content := "Does the website offer Cash on Delivery (COD)" |}.

Definition SEED_ANSWER : Message :=
  {| role := "ai";
     content := "Thanks for your query! Currently, we do not offer Cash on Delivery (COD) on our website. However, we are considering implementing it in the future." |}.

(** [main], lines 84-88: initialise the chat history. *)
Definition init_chat_history : M R unit :=
  absent <- messages_absent ;;
  if absent then
    set_messages [] ;;;
    messages_append SEED_QUESTION ;;;
    messages_append SEED_ANSWER
  else ret tt.

(** [main], lines 90-93: display the chat history. *)
Definition display_chat_history : M R unit :=
  history <- get_messages ;;
  for_each history (fun message =>
    emit (StChatMessage (role message)) ;;;
    emit (StMarkdown (content message) true)).

(** [main], lines 97-158: the body of [if user_input := ...]. *)
Definition handle_user_input (index : PineconeIndex R)
    (google_client : GenaiClient R) (openai_client : OpenAI R)
    (user_input : string) : M R unit :=
  emit (StChatMessage "human") ;;;
  emit (StMarkdown user_input false) ;;;
  messages_append {| role := "human"; content := user_input |} ;;;
  emit (StChatMessage "ai") ;;;
  emit StEmpty ;;;
  emit (PlaceholderMarkdown FETCHING_HTML true) ;;;
  query_embedding <- get_embeddings user_input openai_client
                       EMBEDDING_MODEL ;;
  if list_truthy query_embedding then
    query_result <- query_pinecone index query_embedding 2 ;;
    emit (PlaceholderMarkdown SYNTHESIZING_HTML true) ;;;
    response <- generate_response google_client user_input query_result ;;
    emit (PlaceholderMarkdown response true) ;;;
    messages_append {| role := "ai"; content := response |}
  else ret tt.

(** One run of the script.  Streamlit runs [main] from the top on every
    interaction; [chat_input] is what [st.chat_input] returns in this
    run: [None], or the message the user has just submitted. *)
Definition main (h : Host) (chat_input : option string) : M R unit :=
  let config := load_config h in
  if negb (forallb opt_truthy (config_values config)) then
    emit (StError
      "Missing API keys. Please set them in your environment variables.")
  else
    let '(pinecone_client, google_client, openai_client) :=
      initialize_clients h config in
    let index := Index pinecone_client PINECONE_INDEX_NAME in
    init_chat_history ;;;
    display_chat_history ;;;
    match chat_input with
    | Some user_input =>
        if str_truthy user_input then
          handle_user_input index google_client openai_client user_input
        else ret tt
    | None => ret tt
    end.
End App.
Arguments Host R : clear implicits.
End App.

(** ** data_ingestion.py *)

Module DataIngestion.
Section DataIngestion.
Context {R : Type}.

(** The module-level clients. *)
Variable openai_client : OpenAI R.
Variable pinecone_client : Pinecone R.

Definition EMBEDDING_MODEL : string := "text-embedding-3-small".
Definition INDEX_NAME : string := "ukmegashop-faq".
Definition EMBEDDING_DIMENSION : Z := 1536.
Definition METRIC : string := "cosine".
Definition CLOUD_PROVIDER : string := "aws".
Definition REGION : string := "us-east-1".

Definition get_embeddings (text : string) (model : string)
  : M R (list float) :=
  response <- call (EmbeddingsCreate [text] model)
                   (embeddings_create openai_client [text] model) ;;
  first <- lift (list_getitem (data response) 0) ;;
  ret (embedding first).

Definition create_pinecone_index : M R unit :=
  names <- call ListIndexes (list_indexes_names pinecone_client) ;;
  if negb (bool_decide (INDEX_NAME ∈ names)) then
    let spec := {| cloud := CLOUD_PROVIDER; region := REGION |} in
    call (CreateIndex INDEX_NAME EMBEDDING_DIMENSION METRIC spec)
         (create_index pinecone_client INDEX_NAME EMBEDDING_DIMENSION
            METRIC spec) ;;;
    emit (Print ("Created Pinecone index: " +:+ INDEX_NAME))
  else
    emit (Print ("Index " +:+ INDEX_NAME +:+ " already exists.")).

(** The [for] loop of [prepare_vectors] over the remaining rows, with
    the list [vectors] built so far. *)
Fixpoint prepare_vectors_loop (remaining : list (Z * Row))
    (vectors : list Vector) : M R (list Vector) :=
  match remaining with
  | [] => ret vectors
  | (idx, row) :: rest =>
      let question := Question row in
      let answer := Answer row in
      embedding <- get_embeddings question EMBEDDING_MODEL ;;
      let vector_id := "qa_" +:+ pretty idx in
      let vector :=
        {| id := vector_id;
           values := embedding;
           metadata := {| question := question; answer := answer |} |} in
      prepare_vectors_loop rest (vectors ++ [vector])
  end.

Definition prepare_vectors (df : DataFrame) : M R (list Vector) :=
  prepare_vectors_loop (iterrows df) [].
End DataIngestion.
End DataIngestion.

(** ** In-memory services

    Stand-ins for the three providers, used to run the scripts on concrete
    inputs.  The remote state is the list of the names of the indexes that
    exist; each service either works or is down. *)

Module Doubles.
Definition Remote : Type := list string.

Definition outage : exn := mkExn Exception "Connection error.".

Definition sample_embedding : list float := [0.5%float; 0.25%float].

Definition openai (up : bool) : OpenAI Remote :=
  {| embeddings_create := fun _ _ r =>
       if up
       then (Returns {| data := [ {| embedding := sample_embedding |} ] |}, r)
       else (Raises outage, r) |}.

Definition sample_match : Any :=
  PyObject "{'id': 'qa_0', 'score': 0.9}" "{'id': 'qa_0', 'score': 0.9}".

Definition sample_result : gmap string Any :=
  {[ "matches" := PyList [sample_match] ]}.

Definition index (up : bool) : PineconeIndex Remote :=
  {| index_query := fun _ _ _ r =>
       if up then (Returns sample_result, r) else (Raises outage, r) |}.

(** The control plane: listing reads the names, creating adds one and
    refuses a name that is taken. *)
Definition pinecone (up : bool) : Pinecone Remote :=
  {| Index := fun _ => index up;
     list_indexes_names := fun r => (Returns r, r);
     create_index := fun (name : string) _ _ _ (r : list string) =>
       if bool_decide (name ∈ r)
       then (Raises (mkExn Exception "Resource already exists"), r)
       else (Returns tt, r ++ [name]) |}.

Definition genai (up : bool) : GenaiClient Remote :=
  {| models_generate_content := fun _ _ r =>
       if up
       then (Returns {| text := "Yes, worldwide." |}, r)
       else (Raises outage, r) |}.

(** A host with all three keys set, and each service up or down. *)
Definition host (embed_up query_up generate_up : bool) : App.Host Remote :=
  {| App.getenv := fun _ => Some "key";
     App.Pinecone_ := fun _ => pinecone query_up;
     App.genai_Client := fun _ => genai generate_up;
     App.OpenAI_ := fun _ => openai embed_up |}.

(** A fresh process: no index yet, nothing done, no session state. *)
Definition fresh : World Remote :=
  {| remote := []; trace := []; messages := None |}.

Definition faq : list Row :=
  [ {| Question := "Do you ship internationally?";
       Answer := "Yes, worldwide." |};
    {| Question := "What is your return policy?";
       Answer := "30 days." |} ].
End Doubles.

(** ** Observing a session *)

(** The clients and the index handle that [main] works with on a host. *)
Definition host_openai {R} (h : App.Host R) : OpenAI R :=
  snd (App.initialize_clients h (App.load_config h)).

Definition host_google {R} (h : App.Host R) : GenaiClient R :=
  snd (fst (App.initialize_clients h (App.load_config h))).

Definition host_index {R} (h : App.Host R) : PineconeIndex R :=
  Index (fst (fst (App.initialize_clients h (App.load_config h))))
    App.PINECONE_INDEX_NAME.

(** [all(config.values())] on the host's configuration. *)
Definition keys_set {R} (h : App.Host R) : bool :=
  forallb opt_truthy (App.config_values (App.load_config h)).

(** The conversation log a run of [main] starts from: the one in the
    session state, or the canned pair when the session is new. *)
Definition chat_log {R} (w : World R) : list Message :=
  match messages w with
  | Some l => l
  | None => [App.SEED_QUESTION; App.SEED_ANSWER]
  end.

(** What the display loop writes for a log. *)
Definition display_events (log : list Message) : list Event :=
  flat_map (fun message =>
              [StChatMessage (role message);
               StMarkdown (content message) true]) log.

(** The fallback mapping of [query_pinecone], and what a query leaves
    [main] with: the index's answer, or the fallback after a notice. *)
Definition NO_MATCHES : gmap string Any := {[ "matches" := PyList [] ]}.

Definition retrieved_context (answer : outcome (gmap string Any))
  : gmap string Any :=
  match answer with
  | Returns result => result
  | Raises _ => NO_MATCHES
  end.

Definition retrieval_notice (answer : outcome (gmap string Any))
  : list Event :=
  match answer with
  | Returns _ => []
  | Raises e => [StError ("Error querying Pinecone: " +:+ exn_str e)]
  end.

(** Likewise for the generation call. *)
Definition generated_text (answer : outcome GenerateContentResponse)
  : string :=
  match answer with
  | Returns response => text response
  | Raises _ => App.APOLOGY
  end.

Definition generation_notice (answer : outcome GenerateContentResponse)
  : list Event :=
  match answer with
  | Returns _ => []
  | Raises e => [StError ("Error generating response: " +:+ exn_str e)]
  end.

(** The events of a turn that gets past the embedding guard. *)
Definition turn_events (user_input : string) (query_embedding : list float)
    (retrieved : outcome (gmap string Any)) (matches : Any)
    (generated : outcome GenerateContentResponse) : list Event :=
  [StChatMessage "human"; StMarkdown user_input false;
   StChatMessage "ai"; StEmpty;
   PlaceholderMarkdown App.FETCHING_HTML true;
   EmbeddingsCreate [user_input] App.EMBEDDING_MODEL;
   IndexQuery query_embedding 2 true]
  ++ retrieval_notice retrieved
  ++ [PlaceholderMarkdown App.SYNTHESIZING_HTML true;
      GenerateContent App.GEMINI_MODEL
        (App.prompt_text user_input matches)]
  ++ generation_notice generated
  ++ [PlaceholderMarkdown (generated_text generated) true].

(** The events of a turn that the embedding guard ends. *)
Definition unanswered_turn_events (user_input : string) (e : exn)
  : list Event :=
  [StChatMessage "human"; StMarkdown user_input false;
   StChatMessage "ai"; StEmpty;
   PlaceholderMarkdown App.FETCHING_HTML true;
   EmbeddingsCreate [user_input] App.EMBEDDING_MODEL;
   StError ("Error generating embeddings: " +:+ exn_str e)].

(** The states of a turn, read off the events of a run: a turn is in
    [TurnEmbedding] once the embedding call is made, in [TurnRetrieving]
    once the index is queried, in [TurnGenerating] once the model is
    called, and [TurnRendered] once the placeholder is then overwritten,
    which is where the response replaces the loading animation. *)
Inductive TurnState :=
| TurnIdle
| TurnEmbedding
| TurnRetrieving
| TurnGenerating
| TurnRendered.

Definition turn_step (s : TurnState) (ev : Event) : TurnState :=
  match ev, s with
  | EmbeddingsCreate _ _, TurnIdle => TurnEmbedding
  | IndexQuery _ _ _, TurnEmbedding => TurnRetrieving
  | GenerateContent _ _, TurnRetrieving => TurnGenerating
  | PlaceholderMarkdown _ _, TurnGenerating => TurnRendered
  | _, _ => s
  end.

Definition turn_state (events : list Event) : TurnState :=
  fold_left turn_step events TurnIdle.

(** The two roles of the data model, and the labels [main] writes for
    them: "human" on the user's turns, "ai" on the assistant's. *)
Inductive Role :=
| user
| assistant.

Definition role_of_label (label : string) : option Role :=
  if String.eqb label "human" then Some user
  else if String.eqb label "ai" then Some assistant
  else None.

Definition user_turn (body : string) : Message :=
  {| role := "human"; content := body |}.

Definition assistant_turn (body : string) : Message :=
  {| role := "ai"; content := body |}.

(** Every turn of a log has one of the two roles. *)
Definition roles_ok (log : option (list Message)) : Prop :=
  match log with
  | Some l => Forall (fun m => is_Some (role_of_label (role m))) l
  | None => True
  end.

(** A computation keeps the roles of the log in order. *)
Definition keeps_roles {R A} (m : M R A) : Prop :=
  forall w, roles_ok (messages w) -> roles_ok (messages (snd (m w))).

(** A session: Streamlit runs [main] once per interaction, each run on
    the world the previous one left (also when that run raised). *)
Fixpoint session {R} (h : App.Host R) (inputs : list (option string))
    (w : World R) : World R :=
  match inputs with
  | [] => w
  | chat_input :: rest => session h rest (snd (App.main h chat_input w))
  end.

(** ** Observing an ingestion run *)

(** The number of [create_index] calls among some events. *)
Definition is_create_call (ev : Event) : bool :=
  match ev with
  | CreateIndex _ _ _ _ => true
  | _ => false
  end.

Definition create_calls (events : list Event) : nat :=
  length (filter (fun ev => is_create_call ev = true) events).

(** The contract of the index service that idempotence relies on:
    listing answers with the names of the indexes that exist and changes
    nothing, and creating an index under a free name succeeds and makes
    the name listed. *)
Record index_store {R} (client : Pinecone R) (names : R -> list string)
  : Prop := {
  list_reads : forall r, list_indexes_names client r = (Returns (names r), r);
  create_adds : forall name dimension metric spec r,
    name ∉ names r ->
    exists r', create_index client name dimension metric spec r
               = (Returns tt, r')
               /\ name ∈ names r'
}.

(** An embedding service that answers every call with at least one
    embedding. *)
Definition embedder_up {R} (client : OpenAI R) : Prop :=
  forall input model r,
    exists first rest r',
      embeddings_create client input model r
      = (Returns {| data := first :: rest |}, r').

(** The embedding call that [prepare_vectors] makes for a row, and the
    id and metadata it gives the row's record. *)
Definition row_call (entry : Z * Row) : Event :=
  EmbeddingsCreate [Question (snd entry)] DataIngestion.EMBEDDING_MODEL.

Definition row_record (entry : Z * Row) (v : Vector) : Prop :=
  id v = "qa_" +:+ pretty (fst entry)
  /\ metadata v = {| question := Question (snd entry);
                     answer := Answer (snd entry) |}.

(** What the embedder and the index can see of a frame: the labels and
    the questions. *)
Definition questions (df : DataFrame) : list (Z * string) :=
  (fun entry => (fst entry, Question (snd entry))) <$> df.

(** Two outcomes of [prepare_vectors] that differ at most in the
    metadata of the records. *)
Definition same_vectors (o o' : outcome (list Vector)) : Prop :=
  match o, o' with
  | Returns vs, Returns vs' =>
      id <$> vs = id <$> vs' /\ values <$> vs = values <$> vs'
  | Raises e, Raises e' => e = e'
  | _, _ => False
  end.

(** * Properties *)

(** ** The embedder *)

(** C1, as amended: when the embedding call raises, the query-time embedder
    of app.py reports the error with [st.error] and returns the empty list
    (length 0, never a partial vector), whereas the ingestion-time embedder
    of data_ingestion.py has no handler and the error reaches its caller. *)
Theorem get_embeddings_on_provider_error
    {R} (client : OpenAI R) (text model : string) (w : World R)
    (e : exn) (r' : R) :
  embeddings_create client [text] model (remote w) = (Raises e, r') ->
  App.get_embeddings text client model w =
    (Returns [],
     {| remote := r';
        trace := trace w ++ [EmbeddingsCreate [text] model] ++
                 [StError ("Error generating embeddings: " +:+ exn_str e)];
        messages := messages w |})
  /\ DataIngestion.get_embeddings client text model w =
    (Raises e,
     {| remote := r';
        trace := trace w ++ [EmbeddingsCreate [text] model];
        messages := messages w |}).
Proof.
  intros Hcall. split.
  - unfold App.get_embeddings, try_except, bind, call. rewrite Hcall.
    cbn. by rewrite <- app_assoc.
  - unfold DataIngestion.get_embeddings, bind, call. by rewrite Hcall.
Qed.

Lemma get_embeddings_on_provider_error_witness :
  App.get_embeddings "Do you ship internationally?" (Doubles.openai false)
      App.EMBEDDING_MODEL Doubles.fresh =
    (Returns [],
     {| remote := [];
        trace := [EmbeddingsCreate ["Do you ship internationally?"]
                    App.EMBEDDING_MODEL] ++
                 [StError "Error generating embeddings: Connection error."];
        messages := None |})
  /\ DataIngestion.get_embeddings (Doubles.openai false)
       "Do you ship internationally?" App.EMBEDDING_MODEL Doubles.fresh =
    (Raises Doubles.outage,
     {| remote := [];
        trace := [EmbeddingsCreate ["Do you ship internationally?"]
                    App.EMBEDDING_MODEL];
        messages := None |}).
Proof.
  apply (get_embeddings_on_provider_error (Doubles.openai false)
           "Do you ship internationally?" App.EMBEDDING_MODEL Doubles.fresh
           Doubles.outage []).
  reflexivity.
Defined.

(** C1 fails for data_ingestion.py: with the embedding service down, the
    ingestion-time embedder raises instead of returning the empty list. *)
Lemma ingestion_get_embeddings_propagates :
  embeddings_create (Doubles.openai false) ["What is your return policy?"]
    DataIngestion.EMBEDDING_MODEL (remote Doubles.fresh)
    = (Raises Doubles.outage, [])
  /\ fst (DataIngestion.get_embeddings (Doubles.openai false)
            "What is your return policy?" DataIngestion.EMBEDDING_MODEL
            Doubles.fresh) = Raises Doubles.outage
  /\ fst (DataIngestion.get_embeddings (Doubles.openai false)
            "What is your return policy?" DataIngestion.EMBEDDING_MODEL
            Doubles.fresh) <> Returns [].
Proof. split; [reflexivity | split; [reflexivity | discriminate]]. Qed.

(** ** The answer generator and the index reader *)

Lemma prefix_append (s t : string) : String.prefix s (s +:+ t) = true.
Proof.
  induction s as [|a s IH]; [by destruct t|]. simpl.
  destruct (Ascii.ascii_dec a a); [exact IH | congruence].
Qed.

Lemma contains_unfold (s sub : string) :
  contains s sub =
  String.prefix sub s ||
  match s with
  | EmptyString => false
  | String _ s' => contains s' sub
  end.
Proof. destruct s; reflexivity. Qed.

Lemma contains_here (sub rest : string) : contains (sub +:+ rest) sub = true.
Proof. rewrite contains_unfold, prefix_append. reflexivity. Qed.

Lemma contains_skip (pre s sub : string) :
  contains s sub = true -> contains (pre +:+ s) sub = true.
Proof.
  intros H. induction pre as [|a pre IH]; [exact H|].
  change (String a pre +:+ s) with (String a (pre +:+ s)).
  rewrite contains_unfold. cbv iota. rewrite IH. apply orb_true_r.
Qed.

(** What [generate_response] does once [context['matches']] is read:
    one call to the model with the prompt, then the text or the apology. *)
Lemma generate_response_run
    {R} (google_client : GenaiClient R) (input_text : string)
    (context : gmap string Any) (matches : Any) (w : World R) :
  context !! "matches" = Some matches ->
  let prompt := App.prompt_text input_text matches in
  let w1 r := {| remote := r;
                 trace := trace w ++ [GenerateContent App.GEMINI_MODEL prompt];
                 messages := messages w |} in
  App.generate_response google_client input_text context w =
  match models_generate_content google_client App.GEMINI_MODEL prompt
          (remote w) with
  | (Returns response, r') => (Returns (text response), w1 r')
  | (Raises e, r') =>
      (Returns App.APOLOGY,
       {| remote := r';
          trace := trace (w1 r') ++
                   [StError ("Error generating response: " +:+ exn_str e)];
          messages := messages w |})
  end.
Proof.
  intros Hm prompt w1.
  unfold App.generate_response, bind, lift, dict_getitem. rewrite Hm.
  unfold try_except, bind, call.
  fold prompt.
  destruct (models_generate_content google_client App.GEMINI_MODEL prompt
              (remote w)) as [[response|e] r']; reflexivity.
Qed.

(** C6: the prompt that [generate_response] sends to the model contains
    the user's query text and the text of the retrieved matches, as
    Python serialises them, verbatim. *)
Theorem generate_response_prompt_verbatim
    {R} (google_client : GenaiClient R) (input_text : string)
    (context : gmap string Any) (matches : Any) (w : World R) :
  context !! "matches" = Some matches ->
  exists prompt after,
    trace (snd (App.generate_response google_client input_text context w)) =
      trace w ++ GenerateContent App.GEMINI_MODEL prompt :: after
    /\ prompt = App.prompt_text input_text matches
    /\ contains prompt input_text = true
    /\ contains prompt (py_str matches) = true.
Proof.
  intros Hm. exists (App.prompt_text input_text matches).
  rewrite (generate_response_run _ _ _ _ _ Hm). cbv zeta.
  destruct (models_generate_content _ _ _ _) as [[response|e] r'].
  - exists []. repeat split; cbn [snd trace].
    + unfold App.prompt_text. do 2 apply contains_skip. apply contains_here.
    + unfold App.prompt_text. do 4 apply contains_skip. apply contains_here.
  - exists [StError ("Error generating response: " +:+ exn_str e)].
    repeat split; cbn [snd trace].
    + by rewrite <- app_assoc.
    + unfold App.prompt_text. do 2 apply contains_skip. apply contains_here.
    + unfold App.prompt_text. do 4 apply contains_skip. apply contains_here.
Qed.

Lemma generate_response_prompt_verbatim_witness :
  exists prompt after,
    trace (snd (App.generate_response (Doubles.genai true)
                  "Do you ship internationally?" Doubles.sample_result
                  Doubles.fresh)) =
      trace Doubles.fresh ++ GenerateContent App.GEMINI_MODEL prompt :: after
    /\ prompt = App.prompt_text "Do you ship internationally?"
                  (PyList [Doubles.sample_match])
    /\ contains prompt "Do you ship internationally?" = true
    /\ contains prompt (py_str (PyList [Doubles.sample_match])) = true.
Proof.
  apply (generate_response_prompt_verbatim (Doubles.genai true)
           "Do you ship internationally?" Doubles.sample_result
           (PyList [Doubles.sample_match]) Doubles.fresh).
  reflexivity.
Defined.

(** C7: when the call to the generation model raises, [generate_response]
    reports the error and returns the fixed apology text. *)
Theorem generate_response_apology
    {R} (google_client : GenaiClient R) (input_text : string)
    (context : gmap string Any) (matches : Any) (w : World R)
    (e : exn) (r' : R) :
  context !! "matches" = Some matches ->
  models_generate_content google_client App.GEMINI_MODEL
    (App.prompt_text input_text matches) (remote w) = (Raises e, r') ->
  App.generate_response google_client input_text context w =
    (Returns "Sorry, I couldn't process your request at this time.",
     {| remote := r';
        trace := trace w ++
                 [GenerateContent App.GEMINI_MODEL
                    (App.prompt_text input_text matches)] ++
                 [StError ("Error generating response: " +:+ exn_str e)];
        messages := messages w |}).
Proof.
  intros Hm Hcall. rewrite (generate_response_run _ _ _ _ _ Hm). cbv zeta.
  rewrite Hcall. cbn [trace]. by rewrite <- app_assoc.
Qed.

Lemma generate_response_apology_witness :
  App.generate_response (Doubles.genai false) "What is your return policy?"
      Doubles.sample_result Doubles.fresh =
    (Returns "Sorry, I couldn't process your request at this time.",
     {| remote := [];
        trace := [] ++
                 [GenerateContent App.GEMINI_MODEL
                    (App.prompt_text "What is your return policy?"
                       (PyList [Doubles.sample_match]))] ++
                 [StError "Error generating response: Connection error."];
        messages := None |}).
Proof.
  apply (generate_response_apology (Doubles.genai false)
           "What is your return policy?" Doubles.sample_result
           (PyList [Doubles.sample_match]) Doubles.fresh Doubles.outage []).
  - reflexivity.
  - reflexivity.
Defined.

(** What [query_pinecone] does: one query, then the index's answer or,
    after an error notice, the mapping with no matches. *)
Lemma query_pinecone_run
    {R} (index : PineconeIndex R) (query_embedding : list float) (top_k : Z)
    (w : World R) :
  let w1 r := {| remote := r;
                 trace := trace w ++ [IndexQuery query_embedding top_k true];
                 messages := messages w |} in
  App.query_pinecone index query_embedding top_k w =
  match index_query index query_embedding top_k true (remote w) with
  | (Returns result, r') => (Returns result, w1 r')
  | (Raises e, r') =>
      (Returns {[ "matches" := PyList [] ]},
       {| remote := r';
          trace := trace (w1 r') ++
                   [StError ("Error querying Pinecone: " +:+ exn_str e)];
          messages := messages w |})
  end.
Proof.
  intros w1. unfold App.query_pinecone, try_except, call.
  destruct (index_query index query_embedding top_k true (remote w))
    as [[result|e] r']; reflexivity.
Qed.




(** ** The session orchestrator *)

Lemma display_run {R} (log : list Message) (w : World R) :
  for_each log (fun message =>
      emit (StChatMessage (role message)) ;;;
      emit (StMarkdown (content message) true)) w =
  (Returns tt,
   {| remote := remote w; trace := trace w ++ display_events log;
      messages := messages w |}).
Proof.
  revert w. induction log as [|m log IH]; intros [r tr ms].
  - cbn. by rewrite app_nil_r.
  - cbn [for_each]. unfold bind at 1. unfold bind at 1. unfold emit at 1 2.
    cbn [remote trace messages]. rewrite IH. cbn [remote trace messages].
    cbn [display_events flat_map]. by rewrite <- !app_assoc.
Qed.

(** With the keys set, a run initialises and displays the log, then
    handles the submitted message, if there is one. *)
Lemma main_prelude {R} (h : App.Host R) (chat_input : option string)
    (w : World R) :
  keys_set h = true ->
  App.main h chat_input w =
  (match chat_input with
   | Some user_input =>
       if str_truthy user_input then
         App.handle_user_input (host_index h) (host_google h) (host_openai h)
           user_input
       else ret tt
   | None => ret tt
   end)
    {| remote := remote w; trace := trace w ++ display_events (chat_log w);
       messages := Some (chat_log w) |}.
Proof.
  intros Hkeys. unfold App.main. unfold keys_set in Hkeys. rewrite Hkeys.
  cbn [negb]. unfold host_index, host_google, host_openai.
  destruct (App.initialize_clients h (App.load_config h)) as [[pc gc] oc].
  cbn [fst snd]. unfold bind at 1.
  assert (Hinit : App.init_chat_history w =
                  (Returns tt, {| remote := remote w; trace := trace w;
                                  messages := Some (chat_log w) |})).
  { destruct w as [r tr [l|]]; reflexivity. }
  rewrite Hinit. unfold bind at 1. unfold App.display_chat_history.
  unfold bind at 1. unfold get_messages at 1. cbn [messages].
  rewrite display_run. reflexivity.
Qed.

(** The query-time embedder, case by case. *)
Lemma app_get_embeddings_run {R} (client : OpenAI R) (text model : string)
    (w : World R) :
  App.get_embeddings text client model w =
  let called r := {| remote := r;
                     trace := trace w ++ [EmbeddingsCreate [text] model];
                     messages := messages w |} in
  let failed r e := {| remote := r;
                       trace := trace (called r) ++
                         [StError ("Error generating embeddings: "
                                   +:+ exn_str e)];
                       messages := messages w |} in
  match embeddings_create client [text] model (remote w) with
  | (Returns response, r') =>
      match data response with
      | first :: _ => (Returns (embedding first), called r')
      | [] => (Returns [],
               failed r' (mkExn IndexError "list index out of range"))
      end
  | (Raises e, r') => (Returns [], failed r' e)
  end.
Proof.
  unfold App.get_embeddings, try_except, bind, call.
  destruct (embeddings_create client [text] model (remote w))
    as [[response|e] r']; [|reflexivity].
  destruct response as [[|first rest]]; reflexivity.
Qed.

Lemma turn_state_display (log : list Message) (rest : list Event) :
  turn_state (display_events log ++ rest) = turn_state rest.
Proof.
  unfold turn_state. rewrite fold_left_app.
  replace (fold_left turn_step (display_events log) TurnIdle) with TurnIdle;
    [reflexivity|].
  induction log as [|m log IH]; [reflexivity | exact IH].
Qed.

Lemma turn_events_rendered user_input query_embedding retrieved matches
    generated :
  turn_state (turn_events user_input query_embedding retrieved matches
                generated) = TurnRendered.
Proof. destruct retrieved, generated; reflexivity. Qed.

(** Running the next statement of a script: an output, or an append to
    the log, whose current value is given by [Hlog]. *)
Ltac run_emit :=
  unfold bind at 1; unfold emit at 1; cbn [remote trace messages].

Ltac run_append Hlog :=
  unfold bind at 1; unfold messages_append at 1, bind at 1;
  unfold get_messages at 1; cbn [messages]; rewrite Hlog;
  unfold set_messages at 1; cbn [remote trace messages].

(** A turn whose embedding is not empty runs to the end: query, prompt,
    generation, the response written over the animation, and the
    assistant's turn appended after the user's. *)
Lemma handle_user_input_embedded
    {R} (index : PineconeIndex R) (google_client : GenaiClient R)
    (openai_client : OpenAI R) (user_input : string) (w : World R)
    (log : list Message) response first rest r1 retrieved r2 matches
    generated r3 :
  messages w = Some log ->
  embeddings_create openai_client [user_input] App.EMBEDDING_MODEL (remote w)
    = (Returns response, r1) ->
  data response = first :: rest ->
  list_truthy (embedding first) = true ->
  index_query index (embedding first) 2 true r1 = (retrieved, r2) ->
  retrieved_context retrieved !! "matches" = Some matches ->
  models_generate_content google_client App.GEMINI_MODEL
    (App.prompt_text user_input matches) r2 = (generated, r3) ->
  App.handle_user_input index google_client openai_client user_input w =
  (Returns tt,
   {| remote := r3;
      trace := trace w ++ turn_events user_input (embedding first) retrieved
                            matches generated;
      messages := Some (log ++ [user_turn user_input] ++
                        [assistant_turn (generated_text generated)]) |}).
Proof.
  intros Hlog Hembed Hdata Htruthy Hquery Hmatches Hgen.
  unfold App.handle_user_input.
  do 2 run_emit. run_append Hlog. do 3 run_emit.
  unfold bind at 1. rewrite app_get_embeddings_run. cbv zeta.
  cbn [remote trace messages]. rewrite Hembed, Hdata, Htruthy.
  unfold bind at 1. rewrite query_pinecone_run. cbv zeta.
  cbn [remote trace messages]. rewrite Hquery.
  unfold turn_events, user_turn, assistant_turn.
  destruct retrieved as [result|e]; cbn [retrieved_context] in Hmatches;
    cbn [retrieval_notice];
    run_emit; unfold bind at 1;
    rewrite (generate_response_run _ _ _ _ _ Hmatches); cbv zeta;
    cbn [remote trace messages]; rewrite Hgen;
    destruct generated as [answer|e']; cbn [generation_notice generated_text];
    run_emit;
    unfold messages_append, bind, get_messages, set_messages;
    cbn [remote trace messages];
    repeat rewrite <- app_assoc; reflexivity.
Qed.

(** A turn whose embedding call raises ends at the guard
    [if query_embedding:], with only the user's turn appended. *)
Lemma handle_user_input_unembedded
    {R} (index : PineconeIndex R) (google_client : GenaiClient R)
    (openai_client : OpenAI R) (user_input : string) (w : World R)
    (log : list Message) e r1 :
  messages w = Some log ->
  embeddings_create openai_client [user_input] App.EMBEDDING_MODEL (remote w)
    = (Raises e, r1) ->
  App.handle_user_input index google_client openai_client user_input w =
  (Returns tt,
   {| remote := r1;
      trace := trace w ++ unanswered_turn_events user_input e;
      messages := Some (log ++ [user_turn user_input]) |}).
Proof.
  intros Hlog Hembed.
  unfold App.handle_user_input.
  do 2 run_emit. run_append Hlog. do 3 run_emit.
  unfold bind at 1. rewrite app_get_embeddings_run. cbv zeta.
  cbn [remote trace messages]. rewrite Hembed. cbn [list_truthy].
  unfold ret, unanswered_turn_events, user_turn.
  repeat rewrite <- app_assoc. reflexivity.
Qed.

(** C2, as amended: a turn whose embedding is not empty always reaches
    [TurnRendered] and appends exactly one assistant turn after the user's,
    whether the retrieval or the generation call fails or not (a successful
    index answer carrying "matches"); a turn whose embedding call raises
    is ended by the guard [if query_embedding:] in [TurnEmbedding], with the
    user's turn appended and no assistant turn. *)
Theorem main_turn_outcome
    {R} (h : App.Host R) (user_input : string) (w : World R) :
  keys_set h = true ->
  str_truthy user_input = true ->
  (forall response first rest r1 retrieved r2 matches,
      embeddings_create (host_openai h) [user_input] App.EMBEDDING_MODEL
        (remote w) = (Returns response, r1) ->
      data response = first :: rest ->
      list_truthy (embedding first) = true ->
      index_query (host_index h) (embedding first) 2 true r1
        = (retrieved, r2) ->
      retrieved_context retrieved !! "matches" = Some matches ->
      exists answer events w',
        App.main h (Some user_input) w = (Returns tt, w')
        /\ trace w' = trace w ++ events
        /\ turn_state events = TurnRendered
        /\ messages w' = Some (chat_log w ++ [user_turn user_input] ++
                               [assistant_turn answer]))
  /\ (forall e r1,
      embeddings_create (host_openai h) [user_input] App.EMBEDDING_MODEL
        (remote w) = (Raises e, r1) ->
      exists events w',
        App.main h (Some user_input) w = (Returns tt, w')
        /\ trace w' = trace w ++ events
        /\ turn_state events = TurnEmbedding
        /\ messages w' = Some (chat_log w ++ [user_turn user_input])).
Proof.
  intros Hkeys Hinput. split.
  - intros response first rest r1 retrieved r2 matches
      Hembed Hdata Htruthy Hquery Hmatches.
    destruct (models_generate_content (host_google h) App.GEMINI_MODEL
                (App.prompt_text user_input matches) r2)
      as [generated r3] eqn:Hgen.
    rewrite (main_prelude _ _ _ Hkeys), Hinput.
    erewrite handle_user_input_embedded; [|reflexivity|eassumption..].
    eexists _, _, _. split; [reflexivity|]. cbn [trace messages].
    split; [by rewrite <- app_assoc|]. split; [|reflexivity].
    rewrite turn_state_display. apply turn_events_rendered.
  - intros e r1 Hembed.
    rewrite (main_prelude _ _ _ Hkeys), Hinput.
    erewrite handle_user_input_unembedded; [|reflexivity|eassumption].
    eexists _, _. split; [reflexivity|]. cbn [trace messages].
    split; [by rewrite <- app_assoc|]. split; [|reflexivity].
    rewrite turn_state_display. reflexivity.
Qed.

Lemma main_turn_outcome_witness :
  (exists answer events w',
      App.main (Doubles.host true false false)
        (Some "Do you ship internationally?") Doubles.fresh = (Returns tt, w')
      /\ trace w' = trace Doubles.fresh ++ events
      /\ turn_state events = TurnRendered
      /\ messages w' =
         Some (chat_log Doubles.fresh ++
               [user_turn "Do you ship internationally?"] ++
               [assistant_turn answer]))
  /\ (exists events w',
      App.main (Doubles.host false true true)
        (Some "Do you ship internationally?") Doubles.fresh = (Returns tt, w')
      /\ trace w' = trace Doubles.fresh ++ events
      /\ turn_state events = TurnEmbedding
      /\ messages w' =
         Some (chat_log Doubles.fresh ++
               [user_turn "Do you ship internationally?"])).
Proof.
  split.
  - apply (proj1 (main_turn_outcome (Doubles.host true false false)
                    "Do you ship internationally?" Doubles.fresh
                    eq_refl eq_refl)
             {| data := [ {| embedding := Doubles.sample_embedding |} ] |}
             {| embedding := Doubles.sample_embedding |} [] []
             (Raises Doubles.outage) [] (PyList []));
      reflexivity.
  - apply (proj2 (main_turn_outcome (Doubles.host false true true)
                    "Do you ship internationally?" Doubles.fresh
                    eq_refl eq_refl)
             Doubles.outage []).
    reflexivity.
Defined.

(** C2 fails when the embedding call fails: the user's turn is appended,
    the guard [if query_embedding:] skips the rest, the turn never reaches
    [TurnRendered] and no assistant turn follows. *)
Lemma embedding_failure_leaves_turn_unanswered :
  let w' := snd (App.main (Doubles.host false true true)
                   (Some "Do you ship internationally?") Doubles.fresh) in
  fst (App.main (Doubles.host false true true)
         (Some "Do you ship internationally?") Doubles.fresh) = Returns tt
  /\ messages w' =
     Some [App.SEED_QUESTION; App.SEED_ANSWER;
           user_turn "Do you ship internationally?"]
  /\ turn_state (trace w') = TurnEmbedding
  /\ turn_state (trace w') <> TurnRendered
  /\ ~ (exists answer,
         messages w' =
         Some (chat_log Doubles.fresh ++
               [user_turn "Do you ship internationally?"] ++
               [assistant_turn answer])).
Proof.
  cbv zeta. repeat split; try reflexivity; try discriminate.
  intros [answer H]. vm_compute in H. discriminate H.
Qed.

(** C3: when the index query raises, the turn goes on: the model is called
    with the prompt built from the empty match list, the turn is rendered,
    and exactly one assistant turn follows the user's in the log. *)
Theorem main_retrieval_failure
    {R} (h : App.Host R) (user_input : string) (w : World R)
    response first rest r1 e r2 :
  keys_set h = true ->
  str_truthy user_input = true ->
  embeddings_create (host_openai h) [user_input] App.EMBEDDING_MODEL
    (remote w) = (Returns response, r1) ->
  data response = first :: rest ->
  list_truthy (embedding first) = true ->
  index_query (host_index h) (embedding first) 2 true r1 = (Raises e, r2) ->
  exists answer before after w',
    App.main h (Some user_input) w = (Returns tt, w')
    /\ trace w' = trace w ++ before ++
         [StError ("Error querying Pinecone: " +:+ exn_str e);
          PlaceholderMarkdown App.SYNTHESIZING_HTML true;
          GenerateContent App.GEMINI_MODEL
            (App.prompt_text user_input (PyList []))] ++ after
    /\ turn_state (before ++
         [StError ("Error querying Pinecone: " +:+ exn_str e);
          PlaceholderMarkdown App.SYNTHESIZING_HTML true;
          GenerateContent App.GEMINI_MODEL
            (App.prompt_text user_input (PyList []))] ++ after)
       = TurnRendered
    /\ last after = Some (PlaceholderMarkdown answer true)
    /\ messages w' = Some (chat_log w ++ [user_turn user_input] ++
                           [assistant_turn answer]).
Proof.
  intros Hkeys Hinput Hembed Hdata Htruthy Hquery.
  destruct (models_generate_content (host_google h) App.GEMINI_MODEL
              (App.prompt_text user_input (PyList [])) r2)
    as [generated r3] eqn:Hgen.
  assert (Hmatches : retrieved_context (Raises e) !! "matches"
                     = Some (PyList [])) by apply lookup_singleton_eq.
  rewrite (main_prelude _ _ _ Hkeys), Hinput.
  erewrite handle_user_input_embedded; [|reflexivity|eassumption..].
  exists (generated_text generated),
    (display_events (chat_log w) ++
     [StChatMessage "human"; StMarkdown user_input false;
      StChatMessage "ai"; StEmpty;
      PlaceholderMarkdown App.FETCHING_HTML true;
      EmbeddingsCreate [user_input] App.EMBEDDING_MODEL;
      IndexQuery (embedding first) 2 true]),
    (generation_notice generated ++
     [PlaceholderMarkdown (generated_text generated) true]).
  eexists. split; [reflexivity|]. cbn [trace messages].
  split; [|split; [|split; [|reflexivity]]].
  - unfold turn_events. cbn [retrieval_notice].
    repeat rewrite <- app_assoc. reflexivity.
  - rewrite <- app_assoc, turn_state_display.
    destruct generated; reflexivity.
  - destruct generated; reflexivity.
Qed.

Lemma main_retrieval_failure_witness :
  exists answer before after w',
    App.main (Doubles.host true false true)
      (Some "What is your return policy?") Doubles.fresh = (Returns tt, w')
    /\ trace w' = trace Doubles.fresh ++ before ++
         [StError ("Error querying Pinecone: " +:+ exn_str Doubles.outage);
          PlaceholderMarkdown App.SYNTHESIZING_HTML true;
          GenerateContent App.GEMINI_MODEL
            (App.prompt_text "What is your return policy?" (PyList []))]
         ++ after
    /\ turn_state (before ++
         [StError ("Error querying Pinecone: " +:+ exn_str Doubles.outage);
          PlaceholderMarkdown App.SYNTHESIZING_HTML true;
          GenerateContent App.GEMINI_MODEL
            (App.prompt_text "What is your return policy?" (PyList []))]
         ++ after) = TurnRendered
    /\ last after = Some (PlaceholderMarkdown answer true)
    /\ messages w' =
       Some (chat_log Doubles.fresh ++
             [user_turn "What is your return policy?"] ++
             [assistant_turn answer]).
Proof.
  apply (main_retrieval_failure (Doubles.host true false true)
           "What is your return policy?" Doubles.fresh
           {| data := [ {| embedding := Doubles.sample_embedding |} ] |}
           {| embedding := Doubles.sample_embedding |} [] []
           Doubles.outage []); reflexivity.
Defined.

(** ** The conversation log *)

Section RolesInvariant.
Context {R : Type}.

Lemma keeps_ret {A} (a : A) : keeps_roles (ret (R:=R) a).
Proof. intros w H. exact H. Qed.

Lemma keeps_lift {A} (o : outcome A) : keeps_roles (lift (R:=R) o).
Proof. intros w H. exact H. Qed.

Lemma keeps_emit (ev : Event) : keeps_roles (emit (R:=R) ev).
Proof. intros w H. exact H. Qed.

Lemma keeps_call {A} (ev : Event) (op : R -> outcome A * R) :
  keeps_roles (call ev op).
Proof. intros w H. unfold call. destruct (op (remote w)). exact H. Qed.

Lemma keeps_bind {A B} (m : M R A) (k : A -> M R B) :
  keeps_roles m -> (forall a, keeps_roles (k a)) -> keeps_roles (bind m k).
Proof.
  intros Hm Hk w H. unfold bind. specialize (Hm w H).
  destruct (m w) as [[a|e] w1]; cbn [snd] in *; [by apply Hk | exact Hm].
Qed.

Lemma keeps_try_except {A} (body : M R A) (handler : exn -> M R A) :
  keeps_roles body -> (forall e, keeps_roles (handler e)) ->
  keeps_roles (try_except body handler).
Proof.
  intros Hb Hh w H. unfold try_except. specialize (Hb w H).
  destruct (body w) as [[a|e] w1]; cbn [snd] in *; [exact Hb | by apply Hh].
Qed.

Lemma keeps_for_each {A} (xs : list A) (body : A -> M R unit) :
  (forall x, keeps_roles (body x)) -> keeps_roles (for_each xs body).
Proof.
  intros Hbody. induction xs as [|x xs IH]; cbn [for_each].
  - apply keeps_ret.
  - apply keeps_bind; [apply Hbody | intros _; exact IH].
Qed.

Lemma keeps_get_messages : keeps_roles (get_messages (R:=R)).
Proof. intros [r tr [l|]] H; exact H. Qed.

Lemma keeps_messages_append (m : Message) :
  is_Some (role_of_label (role m)) -> keeps_roles (messages_append (R:=R) m).
Proof.
  intros Hm w H. unfold messages_append, bind, get_messages, set_messages.
  destruct (messages w) as [l|] eqn:Hl; cbn [snd messages]; [|by rewrite Hl].
  cbn [roles_ok] in *. apply Forall_app. split; [exact H|].
  by apply Forall_singleton.
Qed.

Lemma keeps_append_human (body : string) :
  keeps_roles (messages_append (R:=R) {| role := "human"; content := body |}).
Proof. apply keeps_messages_append. by exists user. Qed.

Lemma keeps_append_ai (body : string) :
  keeps_roles (messages_append (R:=R) {| role := "ai"; content := body |}).
Proof. apply keeps_messages_append. by exists assistant. Qed.

Create HintDb keeps discriminated.
#[local] Hint Resolve keeps_ret keeps_lift keeps_emit keeps_call
  keeps_get_messages keeps_append_human keeps_append_ai : keeps.

(** Going through a script statement by statement. *)
Ltac keeps :=
  repeat first
    [ solve [auto with keeps]
    | apply keeps_bind; [|intros ?]
    | apply keeps_try_except; [|intros ?]
    | apply keeps_for_each; intros ?
    | match goal with
      | |- keeps_roles (if ?b then _ else _) => destruct b
      end ].

Lemma keeps_get_embeddings text (client : OpenAI R) model :
  keeps_roles (App.get_embeddings text client model).
Proof. unfold App.get_embeddings. keeps. Qed.

Lemma keeps_query_pinecone (index : PineconeIndex R) query_embedding top_k :
  keeps_roles (App.query_pinecone index query_embedding top_k).
Proof. unfold App.query_pinecone. keeps. Qed.

Lemma keeps_generate_response (google_client : GenaiClient R) input_text
    context :
  keeps_roles (App.generate_response google_client input_text context).
Proof. unfold App.generate_response. keeps. Qed.

(** The initialisation puts the canned pair, a user's turn and an
    assistant's, in a log that was absent. *)
Lemma keeps_init_chat_history : keeps_roles (App.init_chat_history (R:=R)).
Proof.
  intros [r tr [l|]] H; cbn; [exact H|].
  repeat constructor; by eexists.
Qed.

Lemma keeps_display_chat_history :
  keeps_roles (App.display_chat_history (R:=R)).
Proof. unfold App.display_chat_history. keeps. Qed.

#[local] Hint Resolve keeps_get_embeddings keeps_query_pinecone
  keeps_generate_response keeps_init_chat_history
  keeps_display_chat_history : keeps.

Lemma keeps_handle_user_input (index : PineconeIndex R)
    (google_client : GenaiClient R) (openai_client : OpenAI R) user_input :
  keeps_roles (App.handle_user_input index google_client openai_client
                 user_input).
Proof. unfold App.handle_user_input. keeps. Qed.

Lemma keeps_main (h : App.Host R) (chat_input : option string) :
  keeps_roles (App.main h chat_input).
Proof.
  unfold App.main.
  destruct (App.initialize_clients h (App.load_config h)) as [[pc gc] oc].
  destruct chat_input as [user_input|]; keeps;
    apply keeps_handle_user_input.
Qed.

Lemma session_keeps_roles (h : App.Host R) (inputs : list (option string))
    (w : World R) :
  roles_ok (messages w) -> roles_ok (messages (session h inputs w)).
Proof.
  revert w. induction inputs as [|chat_input inputs IH]; intros w H.
  - exact H.
  - cbn [session]. apply IH. by apply keeps_main.
Qed.

End RolesInvariant.

(** C8: through a whole session, from the first run on, every turn in the
    conversation log has the role of the user ("human") or of the
    assistant ("ai"); once the keys are set the log starts with the canned
    pair, whose roles are these two. *)
Theorem conversation_roles
    {R} (h : App.Host R) (inputs : list (option string)) (r : R)
    (events : list Event) :
  let w := session h inputs {| remote := r; trace := events;
                               messages := None |} in
  match messages w with
  | Some log =>
      Forall (fun m => role_of_label (role m) = Some user
                       \/ role_of_label (role m) = Some assistant) log
  | None => True
  end
  /\ role_of_label (role App.SEED_QUESTION) = Some user
  /\ role_of_label (role App.SEED_ANSWER) = Some assistant
  /\ (forall body, role_of_label (role (user_turn body)) = Some user)
  /\ (forall body, role_of_label (role (assistant_turn body))
                   = Some assistant).
Proof.
  cbv zeta. split; [|repeat split].
  pose proof (session_keeps_roles h inputs
                {| remote := r; trace := events; messages := None |} I) as H.
  destruct (messages (session h inputs _)) as [log|]; [|exact I].
  cbn [roles_ok] in H. eapply Forall_impl; [exact H|].
  intros m [[|] Hm]; [by left | by right].
Qed.

(** ** Ingestion: the index writer *)

(** When the name is listed, [create_pinecone_index] creates nothing. *)
Lemma create_pinecone_index_present
    {R} (client : Pinecone R) (w : World R) (names : list string) (r' : R) :
  list_indexes_names client (remote w) = (Returns names, r') ->
  DataIngestion.INDEX_NAME ∈ names ->
  DataIngestion.create_pinecone_index client w =
  (Returns tt,
   {| remote := r';
      trace := trace w ++
               [ListIndexes; Print "Index ukmegashop-faq already exists."];
      messages := messages w |}).
Proof.
  intros Hlist Hin. unfold DataIngestion.create_pinecone_index.
  unfold bind at 1. unfold call at 1. rewrite Hlist.
  rewrite bool_decide_eq_true_2 by exact Hin. cbn [negb].
  unfold emit. cbn [remote trace messages]. by rewrite <- app_assoc.
Qed.

(** When it is not, there is one create call, and its outcome decides. *)
Lemma create_pinecone_index_absent
    {R} (client : Pinecone R) (w : World R) (names : list string) (r1 r2 : R) :
  list_indexes_names client (remote w) = (Returns names, r1) ->
  DataIngestion.INDEX_NAME ∉ names ->
  create_index client DataIngestion.INDEX_NAME
    DataIngestion.EMBEDDING_DIMENSION DataIngestion.METRIC
    {| cloud := DataIngestion.CLOUD_PROVIDER;
       region := DataIngestion.REGION |} r1 = (Returns tt, r2) ->
  DataIngestion.create_pinecone_index client w =
  (Returns tt,
   {| remote := r2;
      trace := trace w ++
               [ListIndexes;
                CreateIndex DataIngestion.INDEX_NAME
                  DataIngestion.EMBEDDING_DIMENSION DataIngestion.METRIC
                  {| cloud := DataIngestion.CLOUD_PROVIDER;
                     region := DataIngestion.REGION |};
                Print "Created Pinecone index: ukmegashop-faq"];
      messages := messages w |}).
Proof.
  intros Hlist Hnotin Hcreate. unfold DataIngestion.create_pinecone_index.
  unfold bind at 1. unfold call at 1. rewrite Hlist.
  rewrite bool_decide_eq_false_2 by exact Hnotin. cbn [negb].
  unfold bind, call, emit. cbn [remote trace messages]. rewrite Hcreate.
  cbn [remote trace messages]. by repeat rewrite <- app_assoc.
Qed.

(** C5: index creation is idempotent.  Whenever the name is among the
    listed indexes, no create call is issued and nothing is raised; and
    against an index service that lists what exists and creates under free
    names, two runs in a row starting without the index both return, the
    first with exactly one create call and the second with none. *)
Theorem create_pinecone_index_idempotent
    {R} (client : Pinecone R) (names : R -> list string) (w : World R) :
  (forall listed r',
      list_indexes_names client (remote w) = (Returns listed, r') ->
      DataIngestion.INDEX_NAME ∈ listed ->
      exists w',
        DataIngestion.create_pinecone_index client w = (Returns tt, w')
        /\ create_calls (drop (length (trace w)) (trace w')) = 0%nat)
  /\ (index_store client names ->
      DataIngestion.INDEX_NAME ∉ names (remote w) ->
      exists w1 w2 first_run second_run,
        DataIngestion.create_pinecone_index client w = (Returns tt, w1)
        /\ trace w1 = trace w ++ first_run
        /\ DataIngestion.create_pinecone_index client w1 = (Returns tt, w2)
        /\ trace w2 = trace w1 ++ second_run
        /\ create_calls first_run = 1%nat
        /\ create_calls second_run = 0%nat
        /\ create_calls (first_run ++ second_run) = 1%nat).
Proof.
  split.
  - intros listed r' Hlist Hin.
    rewrite (create_pinecone_index_present _ _ _ _ Hlist Hin).
    eexists. split; [reflexivity|]. cbn [trace].
    by rewrite drop_app_length.
  - intros [Hreads Hadds] Hnotin.
    destruct (Hadds DataIngestion.INDEX_NAME DataIngestion.EMBEDDING_DIMENSION
                DataIngestion.METRIC
                {| cloud := DataIngestion.CLOUD_PROVIDER;
                   region := DataIngestion.REGION |} (remote w) Hnotin)
      as (r2 & Hcreate & Hin).
    rewrite (create_pinecone_index_absent _ _ _ _ _ (Hreads _) Hnotin Hcreate).
    eexists _, _, _, _. split; [reflexivity|]. split; [reflexivity|].
    split; [eapply create_pinecone_index_present;
            [apply Hreads | exact Hin]|].
    split; [reflexivity|]. repeat split.
Qed.

Lemma create_pinecone_index_idempotent_witness :
  (exists w',
      DataIngestion.create_pinecone_index (Doubles.pinecone true)
        {| remote := ["ukmegashop-faq"]; trace := []; messages := None |}
      = (Returns tt, w')
      /\ create_calls (drop (length (@nil Event)) (trace w')) = 0%nat)
  /\ (exists w1 w2 first_run second_run,
      DataIngestion.create_pinecone_index (Doubles.pinecone true)
        Doubles.fresh = (Returns tt, w1)
      /\ trace w1 = trace Doubles.fresh ++ first_run
      /\ DataIngestion.create_pinecone_index (Doubles.pinecone true) w1
         = (Returns tt, w2)
      /\ trace w2 = trace w1 ++ second_run
      /\ create_calls first_run = 1%nat
      /\ create_calls second_run = 0%nat
      /\ create_calls (first_run ++ second_run) = 1%nat).
Proof.
  split.
  - apply (proj1 (create_pinecone_index_idempotent (Doubles.pinecone true)
                    (fun r => r)
                    {| remote := ["ukmegashop-faq"]; trace := [];
                       messages := None |})
             ["ukmegashop-faq"] ["ukmegashop-faq"]).
    + reflexivity.
    + apply list_elem_of_singleton. reflexivity.
  - apply (proj2 (create_pinecone_index_idempotent (Doubles.pinecone true)
                    (fun r => r) Doubles.fresh)).
    + split; [reflexivity|].
      intros name dimension metric spec r Hfree. cbn.
      rewrite bool_decide_eq_false_2 by exact Hfree.
      eexists. split; [reflexivity|]. apply elem_of_app. right.
      apply list_elem_of_singleton. reflexivity.
    + cbn. apply not_elem_of_nil.
Defined.

(** ** Ingestion: the vector records *)

(** The ingestion-time embedder, case by case: the call is made, and
    whatever it raises reaches the caller. *)
Lemma ingestion_get_embeddings_run
    {R} (client : OpenAI R) (text model : string) (w : World R) :
  DataIngestion.get_embeddings client text model w =
  let called r := {| remote := r;
                     trace := trace w ++ [EmbeddingsCreate [text] model];
                     messages := messages w |} in
  match embeddings_create client [text] model (remote w) with
  | (Returns response, r') =>
      match data response with
      | first :: _ => (Returns (embedding first), called r')
      | [] => (Raises (mkExn IndexError "list index out of range"),
               called r')
      end
  | (Raises e, r') => (Raises e, called r')
  end.
Proof.
  unfold DataIngestion.get_embeddings, bind, call.
  destruct (embeddings_create client [text] model (remote w))
    as [[response|e] r']; [|reflexivity].
  destruct response as [[|first rest]]; reflexivity.
Qed.

Lemma ingestion_get_embeddings_trace
    {R} (client : OpenAI R) (text model : string) (w : World R) :
  trace (snd (DataIngestion.get_embeddings client text model w)) =
  trace w ++ [EmbeddingsCreate [text] model].
Proof.
  rewrite ingestion_get_embeddings_run. cbv zeta.
  destruct (embeddings_create client [text] model (remote w))
    as [[response|e] r']; [|reflexivity].
  destruct (data response); reflexivity.
Qed.

(** One round of the loop of [prepare_vectors]. *)
Lemma prepare_vectors_loop_cons
    {R} (client : OpenAI R) (idx : Z) (row : Row) (rest : list (Z * Row))
    (vectors : list Vector) (w : World R) :
  DataIngestion.prepare_vectors_loop client ((idx, row) :: rest) vectors w =
  match DataIngestion.get_embeddings client (Question row)
          DataIngestion.EMBEDDING_MODEL w with
  | (Returns embedding, w1) =>
      DataIngestion.prepare_vectors_loop client rest
        (vectors ++
         [ {| id := "qa_" +:+ pretty idx;
              values := embedding;
              metadata := {| question := Question row;
                             answer := Answer row |} |} ]) w1
  | (Raises e, w1) => (Raises e, w1)
  end.
Proof. reflexivity. Qed.

(** The calls the loop makes are the questions of the rows it reaches, in
    order; when it returns it has reached every row and added one record
    per row. *)
Lemma prepare_vectors_loop_calls
    {R} (client : OpenAI R) (remaining : list (Z * Row))
    (vectors : list Vector) (w : World R) :
  exists n,
    trace (snd (DataIngestion.prepare_vectors_loop client remaining vectors w))
    = trace w ++ (row_call <$> take n remaining)
    /\ forall result,
        fst (DataIngestion.prepare_vectors_loop client remaining vectors w)
        = Returns result ->
        n = length remaining
        /\ exists added, result = vectors ++ added
                         /\ Forall2 row_record remaining added.
Proof.
  revert vectors w.
  induction remaining as [|[idx row] rest IH]; intros vectors w.
  - exists 0%nat. cbn. split; [by rewrite app_nil_r|].
    intros result [= <-]. split; [reflexivity|].
    exists []. split; [by rewrite app_nil_r | constructor].
  - rewrite prepare_vectors_loop_cons.
    pose proof (ingestion_get_embeddings_trace client (Question row)
                  DataIngestion.EMBEDDING_MODEL w) as Htrace.
    destruct (DataIngestion.get_embeddings client (Question row)
                DataIngestion.EMBEDDING_MODEL w) as [[embedding|e] w1].
    + cbn [snd] in Htrace.
      destruct (IH (vectors ++
                    [ {| id := "qa_" +:+ pretty idx;
                         values := embedding;
                         metadata := {| question := Question row;
                                        answer := Answer row |} |} ]) w1)
        as (n & Hn & Hres).
      exists (S n). split.
      * rewrite Hn, Htrace. cbn [take fmap list_fmap].
        by rewrite <- app_assoc.
      * intros result Hresult. destruct (Hres result Hresult)
          as (-> & added & -> & Hadded).
        split; [reflexivity|]. eexists (_ :: added).
        split; [by rewrite <- app_assoc|].
        constructor; [by split | exact Hadded].
    + exists 1%nat. cbn [snd] in *. split.
      * rewrite Htrace. cbn. by rewrite take_0.
      * intros result [=].
Qed.

(** With the embedding service up, the loop returns. *)
Lemma prepare_vectors_loop_returns
    {R} (client : OpenAI R) (remaining : list (Z * Row))
    (vectors : list Vector) (w : World R) :
  embedder_up client ->
  exists result,
    fst (DataIngestion.prepare_vectors_loop client remaining vectors w)
    = Returns result.
Proof.
  intros Hup. revert vectors w.
  induction remaining as [|[idx row] rest IH]; intros vectors w.
  - by exists vectors.
  - rewrite prepare_vectors_loop_cons, ingestion_get_embeddings_run.
    cbv zeta.
    destruct (Hup [Question row] DataIngestion.EMBEDDING_MODEL (remote w))
      as (first & others & r' & ->).
    cbn [data]. apply IH.
Qed.

Lemma qa_id_inj : Inj (=) (=) (fun idx : Z => "qa_" +:+ pretty idx).
Proof. intros i j H. cbn in H. injection H as H. by apply (inj pretty). Qed.

(** C4: for a CSV with [N] rows (and the embedding service answering),
    [prepare_vectors] returns exactly [N] records; the record of row [i]
    has the id "qa_i" and that row's question and answer as metadata, and
    no two records share an id. *)
Theorem prepare_vectors_records
    {R} (client : OpenAI R) (rows : list Row) (w : World R) :
  embedder_up client ->
  exists vectors w',
    DataIngestion.prepare_vectors client (frame_of_csv rows) w
    = (Returns vectors, w')
    /\ length vectors = length rows
    /\ (forall i row,
          rows !! i = Some row ->
          exists v,
            vectors !! i = Some v
            /\ id v = "qa_" +:+ pretty (Z.of_nat i)
            /\ metadata v = {| question := Question row;
                               answer := Answer row |})
    /\ NoDup (id <$> vectors).
Proof.
  intros Hup. unfold DataIngestion.prepare_vectors, iterrows.
  destruct (prepare_vectors_loop_returns client (frame_of_csv rows) [] w Hup)
    as [vectors Hreturns].
  destruct (prepare_vectors_loop_calls client (frame_of_csv rows) [] w)
    as (n & _ & Hresult).
  destruct (Hresult vectors Hreturns) as (_ & added & -> & Hrecords).
  cbn [app] in *.
  assert (Hlen : length added = length rows).
  { rewrite <- (Forall2_length _ _ _ Hrecords). apply length_imap. }
  assert (Hat : forall i v, added !! i = Some v ->
                id v = "qa_" +:+ pretty (Z.of_nat i)
                /\ exists row, rows !! i = Some row
                   /\ metadata v = {| question := Question row;
                                      answer := Answer row |}).
  { intros i v Hv.
    destruct (Forall2_lookup_r _ _ _ _ _ Hrecords Hv)
      as ([idx row] & Hentry & Hid & Hmeta).
    unfold frame_of_csv in Hentry. rewrite list_lookup_imap in Hentry.
    destruct (rows !! i) as [row'|] eqn:Hrow; [|discriminate].
    cbn in Hentry. injection Hentry as <- <-.
    split; [exact Hid|]. by exists row'. }
  exists added,
    (snd (DataIngestion.prepare_vectors_loop client (frame_of_csv rows) [] w)).
  split; [|split; [exact Hlen|split]].
  - rewrite <- Hreturns. apply surjective_pairing.
  - intros i row Hrow.
    destruct (added !! i) as [v|] eqn:Hv.
    + exists v. destruct (Hat i v Hv) as (Hid & row' & Hrow' & Hmeta).
      split; [reflexivity|]. split; [exact Hid|]. congruence.
    + apply lookup_ge_None in Hv. apply lookup_lt_Some in Hrow. lia.
  - apply NoDup_alt. intros i j x Hi Hj.
    rewrite list_lookup_fmap in Hi, Hj.
    destruct (added !! i) as [vi|] eqn:Hvi; [|discriminate].
    destruct (added !! j) as [vj|] eqn:Hvj; [|discriminate].
    cbn in Hi, Hj. injection Hi as Hi. injection Hj as Hj.
    destruct (Hat i vi Hvi) as [Hidi _]. destruct (Hat j vj Hvj) as [Hidj _].
    apply Nat2Z.inj. apply (inj _ (Inj := qa_id_inj)). congruence.
Qed.

Lemma prepare_vectors_records_witness :
  exists vectors w',
    DataIngestion.prepare_vectors (Doubles.openai true)
      (frame_of_csv Doubles.faq) Doubles.fresh = (Returns vectors, w')
    /\ length vectors = length Doubles.faq
    /\ (forall i row,
          Doubles.faq !! i = Some row ->
          exists v,
            vectors !! i = Some v
            /\ id v = "qa_" +:+ pretty (Z.of_nat i)
            /\ metadata v = {| question := Question row;
                               answer := Answer row |})
    /\ NoDup (id <$> vectors).
Proof.
  apply (prepare_vectors_records (Doubles.openai true) Doubles.faq
           Doubles.fresh).
  intros input model r. by eexists _, _, _.
Defined.

(** The spec's two-row scenario, run: the ids are qa_0 and qa_1, and each
    record carries its row. *)
Example prepare_vectors_faq :
  fst (DataIngestion.prepare_vectors (Doubles.openai true)
         (frame_of_csv Doubles.faq) Doubles.fresh) =
  Returns
    [ {| id := "qa_0"; values := Doubles.sample_embedding;
         metadata := {| question := "Do you ship internationally?";
                        answer := "Yes, worldwide." |} |};
      {| id := "qa_1"; values := Doubles.sample_embedding;
         metadata := {| question := "What is your return policy?";
                        answer := "30 days." |} |} ].
Proof. reflexivity. Qed.

(** The answers have no part in what the loop does to the world, nor in
    the ids and the values of the records. *)
Lemma prepare_vectors_loop_answers_irrelevant
    {R} (client : OpenAI R) (remaining remaining' : list (Z * Row))
    (vectors vectors' : list Vector) (w : World R) :
  questions remaining = questions remaining' ->
  id <$> vectors = id <$> vectors' ->
  values <$> vectors = values <$> vectors' ->
  snd (DataIngestion.prepare_vectors_loop client remaining vectors w)
  = snd (DataIngestion.prepare_vectors_loop client remaining' vectors' w)
  /\ same_vectors
       (fst (DataIngestion.prepare_vectors_loop client remaining vectors w))
       (fst (DataIngestion.prepare_vectors_loop client remaining' vectors' w)).
Proof.
  revert remaining' vectors vectors' w.
  induction remaining as [|[idx row] rest IH];
    intros [|[idx' row'] rest'] vectors vectors' w Hq Hid Hval;
    try discriminate Hq.
  - by repeat split.
  - unfold questions in Hq. cbn in Hq. injection Hq as -> Hquestion Hrest.
    rewrite !prepare_vectors_loop_cons, Hquestion.
    destruct (DataIngestion.get_embeddings client (Question row')
                DataIngestion.EMBEDDING_MODEL w) as [[embedding|e] w1].
    + apply IH; [exact Hrest | |]; rewrite !fmap_app; cbn; congruence.
    + by repeat split.
Qed.

(** C10: the embedder is called with the Question of a row and nothing
    else, once per row reached and in row order; the Answer goes into the
    metadata of the row's record only.  Two frames with the same questions
    therefore lead to the same embedding calls and the same ids and
    values, whatever their answers. *)
Theorem prepare_vectors_embeds_questions_only
    {R} (client : OpenAI R) (df df' : DataFrame) (w : World R) :
  (exists n,
      trace (snd (DataIngestion.prepare_vectors client df w))
      = trace w ++ (row_call <$> take n df)
      /\ forall vectors,
          fst (DataIngestion.prepare_vectors client df w) = Returns vectors ->
          n = length df /\ Forall2 row_record df vectors)
  /\ (questions df = questions df' ->
      snd (DataIngestion.prepare_vectors client df w)
      = snd (DataIngestion.prepare_vectors client df' w)
      /\ same_vectors (fst (DataIngestion.prepare_vectors client df w))
                      (fst (DataIngestion.prepare_vectors client df' w))).
Proof.
  unfold DataIngestion.prepare_vectors, iterrows. split.
  - destruct (prepare_vectors_loop_calls client df [] w) as (n & Hn & Hres).
    exists n. split; [exact Hn|]. intros vectors Hv.
    destruct (Hres vectors Hv) as (-> & added & -> & Hadded). by split.
  - intros Hq. by apply prepare_vectors_loop_answers_irrelevant.
Qed.

Lemma prepare_vectors_embeds_questions_only_witness :
  let df := frame_of_csv Doubles.faq in
  let df' := frame_of_csv
               [ {| Question := "Do you ship internationally?";
                    Answer := "No." |};
                 {| Question := "What is your return policy?";
                    Answer := "60 days." |} ] in
  questions df = questions df'
  /\ snd (DataIngestion.prepare_vectors (Doubles.openai true) df
            Doubles.fresh)
     = snd (DataIngestion.prepare_vectors (Doubles.openai true) df'
              Doubles.fresh)
  /\ same_vectors
       (fst (DataIngestion.prepare_vectors (Doubles.openai true) df
               Doubles.fresh))
       (fst (DataIngestion.prepare_vectors (Doubles.openai true) df'
               Doubles.fresh)).
Proof.
  cbv zeta. split; [reflexivity|].
  apply (proj2 (prepare_vectors_embeds_questions_only (Doubles.openai true)
                  (frame_of_csv Doubles.faq) _ Doubles.fresh)).
  reflexivity.
Defined.

(** The spec's two-row scenario, run: the embedder sees the two questions
    and nothing else. *)
Example prepare_vectors_faq_calls :
  trace (snd (DataIngestion.prepare_vectors (Doubles.openai true)
                (frame_of_csv Doubles.faq) Doubles.fresh)) =
  [ EmbeddingsCreate ["Do you ship internationally?"]
      "text-embedding-3-small";
    EmbeddingsCreate ["What is your return policy?"]
      "text-embedding-3-small" ].
Proof. reflexivity. Qed.
